(** * AIClient (src/lib/extension/src/ai/AIClient.ts)

    A shallow embedding of the rubberduck OpenAI client: the base-URL
    normalisation of the constructor and of [setOpenAIBaseUrl], the
    credential lookup of [getOpenAIApiConfiguration], and the two public
    operations [streamText] and [generateEmbedding].

    JavaScript strings are [string]; the only character the code inspects
    is the slash, a single code unit in every encoding.  JavaScript numbers
    are binary64 floats.  An [async] method is a computation over the trace
    of calls the client has issued to its collaborators; it settles as
    fulfilled or rejected. *)

From Stdlib Require Import String Ascii List Bool Arith Lia Floats.
Import ListNotations.
Local Open Scope string_scope.
Set Warnings "-inexact-float".

(** ** The regular expression [/\/$/] and [String.prototype.replace] *)

Module Regex.

(** [\/$] tried at the start of [s]: one slash, then the end of the input
    (no [m] flag, so [$] is the end of the whole string).  The result is
    what follows the match. *)
Definition match_here (s : string) : option string :=
  match s with
  | String "/" EmptyString => Some EmptyString
  | _ => None
  end.

(** [s.replace(/\/$/, replacement)]: the pattern has no [g] flag, so the
    leftmost position where it matches is replaced and the search stops;
    with no match the string is returned as it is. *)
Fixpoint replace (s replacement : string) : string :=
  match match_here s with
  | Some rest => replacement ++ rest
  | None =>
      match s with
      | EmptyString => EmptyString
      | String c s' => String c (replace s' replacement)
      end
  end.

End Regex.

(** [s] ends in a slash. *)
Fixpoint ends_with_slash (s : string) : bool :=
  match s with
  | EmptyString => false
  | String c EmptyString => Ascii.eqb c "/"
  | String _ s' => ends_with_slash s'
  end.

(** ** JavaScript values the client handles *)

Definition number := float.

(** A value read from the editor's settings. *)
Inductive config_value :=
| CfgUndefined
| CfgNull
| CfgBoolean (b : bool)
| CfgNumber (n : number)
| CfgString (s : string)
| CfgStructured.

(** The issue a failed [z.enum(...).parse] reports. *)
Inductive zod_issue :=
| invalid_type (received : config_value)
| invalid_enum_value (received : string).

(** What a [throw] or a rejected promise carries. *)
Inductive thrown :=
| JsError (message : string)
| ZodError (issue : zod_issue) (message : string)
| TypeError (message : string)
| Foreign (message : option string).

(** [error?.message]. *)
Definition message_of (error : thrown) : option string :=
  match error with
  | JsError m => Some m
  | ZodError _ m => Some m
  | TypeError m => Some m
  | Foreign m => m
  end.

Inductive settled (A : Type) :=
| Fulfilled (value : A)
| Rejected (reason : thrown).
Arguments Fulfilled {A} value.
Arguments Rejected {A} reason.

(** ** modelfusion: configuration values and models *)

Record OpenAIApiConfiguration := {
  baseUrl : string;
  apiKey : string
}.

Inductive PromptFormat :=
| RawChatPrompt
| InstructionPromptToOpenAIChat.

Record OpenAIChatModel := {
  api : OpenAIApiConfiguration;
  model : string;
  maxCompletionTokens : number;
  temperature : number;
  frequencyPenalty : number;
  presencePenalty : number;
  stopSequences : option (list string);
  promptFormat : PromptFormat
}.

Definition withPromptFormat (m : OpenAIChatModel) (f : PromptFormat) : OpenAIChatModel :=
  {| api := api m;
     model := model m;
     maxCompletionTokens := maxCompletionTokens m;
     temperature := temperature m;
     frequencyPenalty := frequencyPenalty m;
     presencePenalty := presencePenalty m;
     stopSequences := stopSequences m;
     promptFormat := f |}.

Definition mapInstructionPromptToOpenAIChatFormat : PromptFormat :=
  InstructionPromptToOpenAIChat.

Record InstructionPrompt := { instruction : string }.

Record OpenAITextEmbeddingModel := {
  embedding_api : OpenAIApiConfiguration;
  embedding_model : string
}.

Record OpenAIUsage := {
  prompt_tokens : number;
  total_tokens : number
}.

Record OpenAITextEmbeddingResponse := { usage : OpenAIUsage }.

(** What [embed(...).asFullResponse()] resolves to. *)
Record EmbedFullResponse := {
  output : list number;
  response : list OpenAITextEmbeddingResponse
}.

(** The chunks of a text stream, in the order they arrive. *)
Definition TextStream := list string.

(** ** The collaborators *)

(** [ApiKeyManager.getOpenAIApiKey()] resolves to a key, to [undefined]
    ([None]), or rejects. *)
Record ApiKeyManager := {
  getOpenAIApiKey : settled (option string)
}.

(** [Logger.log] returns nothing and does not fail; the calls the client
    issues to it are recorded on the trace. *)
Record Logger : Set := { }.

(** The imported modules: the editor's settings, the network layer of
    modelfusion, and the text zod gives a [ZodError]. *)
Record Host := {
  configuration_model : config_value;
  provider_streamText : OpenAIChatModel -> InstructionPrompt -> settled TextStream;
  provider_embed : OpenAITextEmbeddingModel -> string -> settled EmbedFullResponse;
  zod_message : zod_issue -> string
}.

(** ** Calls the client issues, in order *)

Inductive event :=
| EvLog (lines : list string)
| EvGetOpenAIApiKey
| EvGetConfiguration (section key : string)
| EvStreamText (m : OpenAIChatModel) (prompt : InstructionPrompt)
| EvEmbed (m : OpenAITextEmbeddingModel) (value : string)
| EvConsoleLog (error : thrown).

Definition trace := list event.

Definition is_network_call (e : event) : bool :=
  match e with
  | EvStreamText _ _ | EvEmbed _ _ => true
  | _ => false
  end.

Definition is_log_call (e : event) : bool :=
  match e with
  | EvLog _ => true
  | _ => false
  end.

(** The network-call counter of a trace. *)
Definition network_calls (t : trace) : nat :=
  length (filter is_network_call t).

Definition log_calls (t : trace) : list event :=
  filter is_log_call t.

(** ** Asynchronous computations *)

Definition Async (A : Type) := trace -> settled A * trace.

Definition ret {A} (a : A) : Async A := fun t => (Fulfilled a, t).

Definition throw {A} (e : thrown) : Async A := fun t => (Rejected e, t).

Definition bind {A B} (m : Async A) (k : A -> Async B) : Async B :=
  fun t =>
    match m t with
    | (Fulfilled a, t') => k a t'
    | (Rejected e, t') => (Rejected e, t')
    end.

(** [try { body } catch (error) { handler }]. *)
Definition try_catch {A} (body : Async A) (handler : thrown -> Async A) : Async A :=
  fun t =>
    match body t with
    | (Fulfilled a, t') => (Fulfilled a, t')
    | (Rejected e, t') => handler e t'
    end.

(** A call to a collaborator: it is recorded, then settles as given. *)
Definition call {A} (e : event) (r : settled A) : Async A :=
  fun t => (r, (t ++ [e])%list).

Declare Scope async_scope.
Delimit Scope async_scope with async.
Notation "x <- m ;; k" := (bind m (fun x => k))
  (at level 61, m at next level, right associativity) : async_scope.
Notation "m ;; k" := (bind m (fun _ => k))
  (at level 61, right associativity) : async_scope.
Local Open Scope async_scope.

(** ** The configuration readers *)

Definition chat_models : list string :=
  ["gpt-4"; "gpt-4-32k"; "gpt-3.5-turbo"; "gpt-3.5-turbo-16k"].

Definition supported_model (s : string) : bool :=
  existsb (String.eqb s) chat_models.

(** [z.enum(values).parse(data)]: a string among [values] is returned as it
    is; anything else throws a [ZodError]. *)
Definition z_enum_parse (render : zod_issue -> string) (values : list string)
    (data : config_value) : settled string :=
  match data with
  | CfgString s =>
      if existsb (String.eqb s) values then Fulfilled s
      else Rejected (ZodError (invalid_enum_value s) (render (invalid_enum_value s)))
  | other => Rejected (ZodError (invalid_type other) (render (invalid_type other)))
  end.

Definition getOpenAIChatModel (host : Host) : Async string :=
  data <- call (EvGetConfiguration "rubberduck" "model") (Fulfilled (configuration_model host)) ;;
  fun t => (z_enum_parse (zod_message host) chat_models data, t).

(** ** The client *)

Record AIClient := {
  apiKeyManager : ApiKeyManager;
  logger : Logger;
  openAIBaseUrl : string
}.

(** [new AIClient({ apiKeyManager, logger, openAIBaseUrl })]. *)
Definition new_AIClient (apiKeyManager : ApiKeyManager) (logger : Logger)
    (openAIBaseUrl : string) : AIClient :=
  {| apiKeyManager := apiKeyManager;
     logger := logger;
     openAIBaseUrl := Regex.replace openAIBaseUrl "" |}.

Definition setOpenAIBaseUrl (this : AIClient) (openAIBaseUrl : string) : AIClient :=
  {| apiKeyManager := apiKeyManager this;
     logger := logger this;
     openAIBaseUrl := Regex.replace openAIBaseUrl "" |}.

Definition missing_key_message : string :=
  "No OpenAI API key found. " ++
  "Please enter your OpenAI API key with the 'Rubberduck: Enter OpenAI API key' command.".

Definition getOpenAIApiConfiguration (this : AIClient) : Async OpenAIApiConfiguration :=
  apiKey <- call EvGetOpenAIApiKey (getOpenAIApiKey (apiKeyManager this)) ;;
  match apiKey with
  | None => throw (JsError missing_key_message)
  | Some apiKey => ret {| baseUrl := openAIBaseUrl this; apiKey := apiKey |}
  end.

(** The argument of [streamText]; an omitted property is [None]. *)
Record StreamTextArgs := {
  prompt : string;
  maxTokens : number;
  stop : option (list string);
  arg_temperature : option number
}.

Definition log (this : AIClient) (lines : list string) : Async unit :=
  call (EvLog lines) (Fulfilled tt).

Definition streamText (host : Host) (this : AIClient) (args : StreamTextArgs)
    : Async TextStream :=
  let temperature := match arg_temperature args with Some x => x | None => 0%float end in
  log this
    ["--- Start OpenAI prompt ---"; prompt args; "--- End OpenAI prompt ---"] ;;
  api <- getOpenAIApiConfiguration this ;;
  model <- getOpenAIChatModel host ;;
  let chat :=
    withPromptFormat
      {| api := api;
         model := model;
         maxCompletionTokens := maxTokens args;
         temperature := temperature;
         frequencyPenalty := 0%float;
         presencePenalty := 0%float;
         stopSequences := stop args;
         promptFormat := RawChatPrompt |}
      mapInstructionPromptToOpenAIChatFormat in
  let instruction := {| instruction := prompt args |} in
  call (EvStreamText chat instruction) (provider_streamText host chat instruction).

Inductive EmbeddingResult :=
| success (embedding : list number) (totalTokenCount : number)
| error (errorMessage : option string).

Definition generateEmbedding (host : Host) (this : AIClient) (input : string)
    : Async EmbeddingResult :=
  try_catch
    (api <- getOpenAIApiConfiguration this ;;
     let m := {| embedding_api := api; embedding_model := "text-embedding-ada-002" |} in
     full <- call (EvEmbed m input) (provider_embed host m input) ;;
     match response full with
     | first :: _ =>
         ret (success (output full) (total_tokens (usage first)))
     | [] => throw (TypeError "Cannot read properties of undefined (reading 'usage')")
     end)
    (fun e =>
       call (EvConsoleLog e) (Fulfilled tt) ;;
       ret (error (message_of e))).

(** ** Reading a run *)

(** How the promise of [m], started after the calls [t], settles. *)
Definition outcome {A} (m : Async A) (t : trace) : settled A := fst (m t).

(** The calls on record once [m], started after the calls [t], has settled. *)
Definition issued {A} (m : Async A) (t : trace) : trace := snd (m t).

(** The two validation errors. *)
Definition MissingCredential : thrown := JsError missing_key_message.

Definition is_ConfigurationError (e : thrown) : bool :=
  match e with
  | ZodError _ _ => true
  | _ => false
  end.

(** The configured model identifier is one of the supported names. *)
Definition in_enumeration (v : config_value) : bool :=
  match v with
  | CfgString s => supported_model s
  | _ => false
  end.

Definition prompt_log (args : StreamTextArgs) : event :=
  EvLog ["--- Start OpenAI prompt ---"; prompt args; "--- End OpenAI prompt ---"].

(** The calls [m] itself issued when started after [t]. *)
Definition new_calls {A} (m : Async A) (t : trace) : trace :=
  skipn (length t) (issued m t).

(** The model [generateEmbedding] builds for [key]. *)
Definition ada_002 (this : AIClient) (key : string) : OpenAITextEmbeddingModel :=
  {| embedding_api := {| baseUrl := openAIBaseUrl this; apiKey := key |};
     embedding_model := "text-embedding-ada-002" |}.

(** The ways one call of [generateEmbedding] can go: how it settles and
    the calls it issues. *)
Inductive embedding_run (host : Host) (this : AIClient) (input : string)
  : settled EmbeddingResult -> trace -> Prop :=
| run_key_absent :
    getOpenAIApiKey (apiKeyManager this) = Fulfilled None ->
    embedding_run host this input
      (Fulfilled (error (Some missing_key_message)))
      [EvGetOpenAIApiKey; EvConsoleLog MissingCredential]
| run_key_rejected e :
    getOpenAIApiKey (apiKeyManager this) = Rejected e ->
    embedding_run host this input
      (Fulfilled (error (message_of e)))
      [EvGetOpenAIApiKey; EvConsoleLog e]
| run_embed_rejected key e :
    getOpenAIApiKey (apiKeyManager this) = Fulfilled (Some key) ->
    provider_embed host (ada_002 this key) input = Rejected e ->
    embedding_run host this input
      (Fulfilled (error (message_of e)))
      [EvGetOpenAIApiKey; EvEmbed (ada_002 this key) input; EvConsoleLog e]
| run_embed_no_usage key full :
    getOpenAIApiKey (apiKeyManager this) = Fulfilled (Some key) ->
    provider_embed host (ada_002 this key) input = Fulfilled full ->
    response full = [] ->
    embedding_run host this input
      (Fulfilled (error (Some "Cannot read properties of undefined (reading 'usage')")))
      [EvGetOpenAIApiKey; EvEmbed (ada_002 this key) input;
       EvConsoleLog (TypeError "Cannot read properties of undefined (reading 'usage')")]
| run_embed_fulfilled key full first others :
    getOpenAIApiKey (apiKeyManager this) = Fulfilled (Some key) ->
    provider_embed host (ada_002 this key) input = Fulfilled full ->
    response full = first :: others ->
    embedding_run host this input
      (Fulfilled (success (output full) (total_tokens (usage first))))
      [EvGetOpenAIApiKey; EvEmbed (ada_002 this key) input].

(** ** The rest of the file: the base-URL setting, and counting calls *)




Definition is_console_log (e : event) : bool :=
  match e with
  | EvConsoleLog _ => true
  | _ => false
  end.


(** The model [streamText] builds for [key] and the parsed model [name]. *)
Definition chat_model_for (this : AIClient) (args : StreamTextArgs) (key name : string)
    : OpenAIChatModel :=
  {| api := {| baseUrl := openAIBaseUrl this; apiKey := key |};
     model := name;
     maxCompletionTokens := maxTokens args;
     temperature := match arg_temperature args with
                    | Some x => x
                    | None => 0%float
                    end;
     frequencyPenalty := 0%float;
     presencePenalty := 0%float;
     stopSequences := stop args;
     promptFormat := InstructionPromptToOpenAIChat |}.

(** The ways one call of [streamText] can go: how it settles and the
    calls it issues. *)
Inductive stream_run (host : Host) (this : AIClient) (args : StreamTextArgs)
  : settled TextStream -> trace -> Prop :=
| stream_key_absent :
    getOpenAIApiKey (apiKeyManager this) = Fulfilled None ->
    stream_run host this args
      (Rejected MissingCredential)
      [prompt_log args; EvGetOpenAIApiKey]
| stream_key_rejected e :
    getOpenAIApiKey (apiKeyManager this) = Rejected e ->
    stream_run host this args
      (Rejected e)
      [prompt_log args; EvGetOpenAIApiKey]
| stream_model_rejected key e :
    getOpenAIApiKey (apiKeyManager this) = Fulfilled (Some key) ->
    z_enum_parse (zod_message host) chat_models (configuration_model host) = Rejected e ->
    stream_run host this args
      (Rejected e)
      [prompt_log args; EvGetOpenAIApiKey; EvGetConfiguration "rubberduck" "model"]
| stream_dispatched key name :
    getOpenAIApiKey (apiKeyManager this) = Fulfilled (Some key) ->
    z_enum_parse (zod_message host) chat_models (configuration_model host) = Fulfilled name ->
    stream_run host this args
      (provider_streamText host (chat_model_for this args key name)
         {| instruction := prompt args |})
      [prompt_log args; EvGetOpenAIApiKey; EvGetConfiguration "rubberduck" "model";
       EvStreamText (chat_model_for this args key name) {| instruction := prompt args |}].

(** ** Sample collaborators, for concrete runs *)

Definition key_present : ApiKeyManager := {| getOpenAIApiKey := Fulfilled (Some "sk-1") |}.

Definition key_absent : ApiKeyManager := {| getOpenAIApiKey := Fulfilled None |}.

Definition local_client : AIClient :=
  new_AIClient key_present Build_Logger "http://localhost:8080/v1/".

Definition locked_client : AIClient :=
  new_AIClient key_absent Build_Logger "https://api.openai.com/v1/".

Definition usage_of (n : number) : OpenAITextEmbeddingResponse :=
  {| usage := {| prompt_tokens := n; total_tokens := n |} |}.

(** A host whose provider answers every call; the configured model is
    [configured]. *)
Definition stub_host (configured : config_value) : Host :=
  {| configuration_model := configured;
     provider_streamText := fun _ p => Fulfilled ["echo: "; instruction p];
     provider_embed := fun _ _ =>
       Fulfilled {| output := [0.1; 0.2; 0.3]%float; response := [usage_of 7%float] |};
     zod_message := fun _ => "Invalid enum value" |}.

(** A host whose provider rejects every call with [reason]. *)
Definition failing_host (configured : config_value) (reason : thrown) : Host :=
  {| configuration_model := configured;
     provider_streamText := fun _ _ => Rejected reason;
     provider_embed := fun _ _ => Rejected reason;
     zod_message := fun _ => "Invalid enum value" |}.

Definition sample_args : StreamTextArgs :=
  {| prompt := "Explain this code";
     maxTokens := 1024%float;
     stop := Some ["```"];
     arg_temperature := None |}.

(** * Properties *)

(** ** The regular expression *)

Lemma match_here_cons (c : ascii) (s : string) :
  Regex.match_here (String c s) =
    if Ascii.eqb c "/" then
      match s with EmptyString => Some EmptyString | String _ _ => None end
    else None.
Proof.
  destruct c as [[] [] [] [] [] [] [] []]; destruct s; reflexivity.
Qed.

Lemma replace_cons_cons (c d : ascii) (s r : string) :
  Regex.replace (String c (String d s)) r = String c (Regex.replace (String d s) r).
Proof.
  change (Regex.replace (String c (String d s)) r)
    with (match Regex.match_here (String c (String d s)) with
          | Some rest => r ++ rest
          | None => String c (Regex.replace (String d s) r)
          end).
  rewrite match_here_cons. destruct (Ascii.eqb c "/"); reflexivity.
Qed.

Lemma replace_single (c : ascii) :
  Regex.replace (String c EmptyString) "" =
    if Ascii.eqb c "/" then EmptyString else String c EmptyString.
Proof.
  change (Regex.replace (String c EmptyString) "")
    with (match Regex.match_here (String c EmptyString) with
          | Some rest => "" ++ rest
          | None => String c (Regex.replace EmptyString "")
          end).
  rewrite match_here_cons. destruct (Ascii.eqb c "/"); reflexivity.
Qed.

(** A string that does not end in a slash has no match. *)
Lemma replace_without_slash (s : string) :
  ends_with_slash s = false -> Regex.replace s "" = s.
Proof.
  induction s as [|c s IH]; intros H.
  - reflexivity.
  - destruct s as [|d s].
    + rewrite replace_single. simpl in H. now rewrite H.
    + rewrite replace_cons_cons. f_equal. apply IH. exact H.
Qed.

(** The match is the last code unit, whatever precedes it. *)
Lemma replace_app_slash (s : string) :
  Regex.replace (s ++ "/") "" = s.
Proof.
  induction s as [|c s IH].
  - reflexivity.
  - simpl append. destruct s as [|d s].
    + apply (replace_cons_cons c "/" EmptyString "").
    + simpl append in *. rewrite replace_cons_cons. now rewrite IH.
Qed.

Lemma ends_with_slash_app (s : string) :
  ends_with_slash (s ++ "/") = true.
Proof.
  induction s as [|c s IH]; [reflexivity|].
  simpl append. destruct s; [reflexivity|]. exact IH.
Qed.

Lemma append_assoc (a b c : string) : (a ++ b) ++ c = a ++ (b ++ c).
Proof. induction a as [|x a IH]; simpl; [reflexivity | now rewrite IH]. Qed.

(** ** Base URL *)

(** C5. Normalisation by the constructor and by [setOpenAIBaseUrl]: a URL
    [p/] whose [p] does not end in a slash (exactly one trailing slash) is
    stored as [p]; a URL [p] that does not end in a slash is stored as it
    is; a URL [p//] is stored as [p/], one slash stripped and one left. *)
Theorem base_url_normalization
    (am : ApiKeyManager) (lg : Logger) (this : AIClient) (p : string) :
  (ends_with_slash p = false ->
     openAIBaseUrl (new_AIClient am lg (p ++ "/")) = p /\
     openAIBaseUrl (setOpenAIBaseUrl this (p ++ "/")) = p /\
     openAIBaseUrl (new_AIClient am lg p) = p /\
     openAIBaseUrl (setOpenAIBaseUrl this p) = p) /\
  (openAIBaseUrl (new_AIClient am lg (p ++ "//")) = p ++ "/" /\
   openAIBaseUrl (setOpenAIBaseUrl this (p ++ "//")) = p ++ "/" /\
   ends_with_slash (p ++ "/") = true).
Proof.
  assert (two : Regex.replace (p ++ "//") "" = p ++ "/").
  { change "//" with ("/" ++ "/"). rewrite <- append_assoc. apply replace_app_slash. }
  split.
  - intros H. cbn [new_AIClient setOpenAIBaseUrl openAIBaseUrl].
    rewrite replace_app_slash, (replace_without_slash p H). auto.
  - cbn [new_AIClient setOpenAIBaseUrl openAIBaseUrl]. rewrite two.
    auto using ends_with_slash_app.
Qed.

Lemma base_url_normalization_witness :
  ends_with_slash "https://api.openai.com/v1" = false /\
  openAIBaseUrl (new_AIClient key_present Build_Logger "https://api.openai.com/v1/")
    = "https://api.openai.com/v1" /\
  openAIBaseUrl (setOpenAIBaseUrl local_client "https://api.openai.com/v1/")
    = "https://api.openai.com/v1" /\
  openAIBaseUrl (new_AIClient key_present Build_Logger "https://api.openai.com/v1")
    = "https://api.openai.com/v1" /\
  openAIBaseUrl (setOpenAIBaseUrl local_client "https://api.openai.com/v1")
    = "https://api.openai.com/v1".
Proof.
  split; [reflexivity|].
  apply (proj1 (base_url_normalization key_present Build_Logger local_client
                  "https://api.openai.com/v1")).
  reflexivity.
Defined.

(** C4. The constructor and [setOpenAIBaseUrl] are commented as ensuring
    that the base URL has no trailing slash; on a URL that ends in two
    slashes each of them stores a URL that still ends in one. *)
Theorem base_url_trailing_slash_survives (am : ApiKeyManager) (lg : Logger) :
  let built := new_AIClient am lg "https://api.openai.com/v1//" in
  let updated := setOpenAIBaseUrl (new_AIClient am lg "https://api.openai.com/v1")
                   "https://api.openai.com/v1//" in
  openAIBaseUrl built = "https://api.openai.com/v1/" /\
  ends_with_slash (openAIBaseUrl built) = true /\
  openAIBaseUrl updated = "https://api.openai.com/v1/" /\
  ends_with_slash (openAIBaseUrl updated) = true.
Proof. repeat split. Qed.

(** ** Running an operation *)

Local Open Scope list_scope.

Lemma network_calls_app (t u : trace) :
  network_calls (t ++ u) = network_calls t + network_calls u.
Proof. unfold network_calls. now rewrite filter_app, length_app. Qed.

Lemma log_calls_app (t u : trace) : log_calls (t ++ u) = log_calls t ++ log_calls u.
Proof. apply filter_app. Qed.

Ltac run_async :=
  unfold outcome, issued, streamText, generateEmbedding, getOpenAIApiConfiguration,
    getOpenAIChatModel, log, try_catch, bind, call, ret, throw;
  cbn [fst snd].

Ltac flatten_trace := repeat (rewrite <- app_assoc; cbn [app]).

(** *** [streamText], case by case *)

Section StreamTextRuns.

Variables (host : Host) (this : AIClient) (args : StreamTextArgs) (t : trace).

Lemma streamText_key_absent :
  getOpenAIApiKey (apiKeyManager this) = Fulfilled None ->
  streamText host this args t =
    (Rejected MissingCredential, t ++ [prompt_log args; EvGetOpenAIApiKey]).
Proof. intros H. run_async. rewrite H. flatten_trace. reflexivity. Qed.

Lemma streamText_key_rejected (e : thrown) :
  getOpenAIApiKey (apiKeyManager this) = Rejected e ->
  streamText host this args t =
    (Rejected e, t ++ [prompt_log args; EvGetOpenAIApiKey]).
Proof. intros H. run_async. rewrite H. flatten_trace. reflexivity. Qed.

Lemma parse_outside_enumeration :
  in_enumeration (configuration_model host) = false ->
  exists issue,
    z_enum_parse (zod_message host) chat_models (configuration_model host)
      = Rejected (ZodError issue (zod_message host issue)).
Proof.
  unfold in_enumeration, supported_model, z_enum_parse.
  destruct (configuration_model host) as [| |b|n|s|]; intros H; try (eexists; reflexivity).
  rewrite H. eexists; reflexivity.
Qed.

Lemma streamText_model_rejected (key : string) :
  getOpenAIApiKey (apiKeyManager this) = Fulfilled (Some key) ->
  in_enumeration (configuration_model host) = false ->
  exists issue,
    streamText host this args t =
      (Rejected (ZodError issue (zod_message host issue)),
       t ++ [prompt_log args; EvGetOpenAIApiKey; EvGetConfiguration "rubberduck" "model"]).
Proof.
  intros Hkey Hcfg. destruct (parse_outside_enumeration Hcfg) as [issue Hp].
  exists issue. run_async. rewrite Hkey. cbn. rewrite Hp. flatten_trace. reflexivity.
Qed.

(** The model [streamText] hands to the network layer for [key] and
    [name]. *)
Lemma streamText_dispatched (key name : string) :
  getOpenAIApiKey (apiKeyManager this) = Fulfilled (Some key) ->
  configuration_model host = CfgString name ->
  supported_model name = true ->
  forall chat,
    chat = {| api := {| baseUrl := openAIBaseUrl this; apiKey := key |};
              model := name;
              maxCompletionTokens := maxTokens args;
              temperature := match arg_temperature args with
                             | Some x => x
                             | None => 0%float
                             end;
              frequencyPenalty := 0%float;
              presencePenalty := 0%float;
              stopSequences := stop args;
              promptFormat := InstructionPromptToOpenAIChat |} ->
    streamText host this args t =
      (provider_streamText host chat {| instruction := prompt args |},
       t ++ [prompt_log args; EvGetOpenAIApiKey; EvGetConfiguration "rubberduck" "model";
             EvStreamText chat {| instruction := prompt args |}]).
Proof.
  intros Hkey Hcfg Hname chat ->. run_async. rewrite Hkey. cbn.
  rewrite Hcfg. unfold z_enum_parse. fold (supported_model name). rewrite Hname.
  flatten_trace. reflexivity.
Qed.

Lemma in_enumeration_string :
  in_enumeration (configuration_model host) = true ->
  exists name, configuration_model host = CfgString name /\ supported_model name = true.
Proof.
  unfold in_enumeration. destruct (configuration_model host); try discriminate.
  intros H. eauto.
Qed.

(** Whatever the collaborators do, the call first logs the prompt, logs
    nothing else, and reaches the network only once validation passed. *)
Lemma streamText_calls :
  exists rest,
    issued (streamText host this args) t = t ++ prompt_log args :: rest /\
    log_calls rest = [] /\
    (network_calls rest = 0 \/
     exists chat p, rest = [EvGetOpenAIApiKey; EvGetConfiguration "rubberduck" "model";
                            EvStreamText chat p]).
Proof.
  unfold issued.
  destruct (getOpenAIApiKey (apiKeyManager this)) as [[key|]|e] eqn:Hkey.
  - destruct (in_enumeration (configuration_model host)) eqn:Hcfg.
    + destruct (in_enumeration_string Hcfg) as (name & Hname & Hsup).
      rewrite (streamText_dispatched key name Hkey Hname Hsup _ eq_refl).
      eexists. repeat split. right. eauto.
    + destruct (streamText_model_rejected key Hkey Hcfg) as [issue ->].
      eexists. repeat split. now left.
  - rewrite (streamText_key_absent Hkey). eexists. repeat split. now left.
  - rewrite (streamText_key_rejected e Hkey). eexists. repeat split. now left.
Qed.

End StreamTextRuns.

Lemma new_calls_of {A} (m : Async A) (t new : trace) :
  issued m t = t ++ new -> new_calls m t = new.
Proof.
  unfold new_calls. intros ->. rewrite skipn_app, skipn_all, Nat.sub_diag. reflexivity.
Qed.

Lemma network_calls_of {A} (m : Async A) (t new : trace) :
  issued m t = t ++ new -> network_calls new = 0 ->
  network_calls (issued m t) = network_calls t.
Proof. intros -> H. rewrite network_calls_app, H. apply Nat.add_0_r. Qed.

(** *** [generateEmbedding], case by case *)

Lemma generateEmbedding_runs (host : Host) (this : AIClient) (input : string) (t : trace) :
  exists r new,
    generateEmbedding host this input t = (r, t ++ new) /\
    embedding_run host this input r new.
Proof.
  run_async. fold (ada_002 this).
  case_eq (getOpenAIApiKey (apiKeyManager this)); [intros [key|] Hkey | intros e Hkey]; cbn.
  - fold (ada_002 this key).
    case_eq (provider_embed host (ada_002 this key) input); [intros full Hfull | intros e Hfull].
    + case_eq (response full); [intros Hresp | intros first others Hresp]; cbn;
        flatten_trace; do 2 eexists; (split; [reflexivity|]).
      * eapply run_embed_no_usage; eauto.
      * eapply run_embed_fulfilled; eauto.
    + cbn. flatten_trace. do 2 eexists. split; [reflexivity|].
      eapply run_embed_rejected; eauto.
  - flatten_trace. do 2 eexists. split; [reflexivity|]. now apply run_key_absent.
  - flatten_trace. do 2 eexists. split; [reflexivity|]. now apply run_key_rejected.
Qed.

(** A run is determined by what the collaborators answer. *)
Lemma embedding_run_settles (host : Host) (this : AIClient) (input : string)
    (r : settled EmbeddingResult) (new : trace) :
  embedding_run host this input r new -> exists v, r = Fulfilled v.
Proof. intros H. inversion H; subst; eauto. Qed.

Lemma embedding_run_no_configuration (host : Host) (this : AIClient) (input : string)
    (r : settled EmbeddingResult) (new : trace) :
  embedding_run host this input r new ->
  forall section key, ~ In (EvGetConfiguration section key) new.
Proof.
  intros H section key Hin.
  inversion H; subst; cbn in Hin; intuition discriminate.
Qed.

Ltac embedding_cases host this input t :=
  let r := fresh "r" in
  let new := fresh "new" in
  let Hrun := fresh "Hrun" in
  let Hcase := fresh "Hcase" in
  destruct (generateEmbedding_runs host this input t) as (r & new & Hrun & Hcase);
  unfold outcome, issued; rewrite Hrun; cbn [fst snd];
  inversion Hcase; subst; try congruence.

Lemma generateEmbedding_key_absent (host : Host) (this : AIClient) (input : string) (t : trace) :
  getOpenAIApiKey (apiKeyManager this) = Fulfilled None ->
  generateEmbedding host this input t =
    (Fulfilled (error (Some missing_key_message)),
     t ++ [EvGetOpenAIApiKey; EvConsoleLog MissingCredential]).
Proof.
  intros H. destruct (generateEmbedding_runs host this input t) as (r & new & -> & Hcase).
  inversion Hcase; subst; congruence.
Qed.

(** ** [generateEmbedding] *)

(** C1. [generateEmbedding] never raises: whatever the key manager and the
    provider do, the call is fulfilled.  When the key is absent, when the
    key manager rejects, and when the provider's embedding call rejects,
    it is fulfilled with the error variant, whose [errorMessage] is the
    [message] of what was thrown, or undefined when that has none. *)
Theorem generateEmbedding_never_raises
    (host : Host) (this : AIClient) (input : string) (t : trace) :
  (exists r, outcome (generateEmbedding host this input) t = Fulfilled r) /\
  (getOpenAIApiKey (apiKeyManager this) = Fulfilled None ->
     outcome (generateEmbedding host this input) t
       = Fulfilled (error (Some missing_key_message))) /\
  (forall e, getOpenAIApiKey (apiKeyManager this) = Rejected e ->
     outcome (generateEmbedding host this input) t = Fulfilled (error (message_of e))) /\
  (forall key e,
     getOpenAIApiKey (apiKeyManager this) = Fulfilled (Some key) ->
     provider_embed host
       {| embedding_api := {| baseUrl := openAIBaseUrl this; apiKey := key |};
          embedding_model := "text-embedding-ada-002" |} input = Rejected e ->
     outcome (generateEmbedding host this input) t = Fulfilled (error (message_of e))).
Proof.
  repeat split.
  - embedding_cases host this input t; eauto.
  - intros Hkey. embedding_cases host this input t.
  - intros e Hkey. embedding_cases host this input t.
  - intros key e Hkey Hembed. fold (ada_002 this key) in Hembed.
    embedding_cases host this input t.
Qed.

Lemma generateEmbedding_never_raises_witness :
  outcome (generateEmbedding (stub_host (CfgString "gpt-4")) locked_client "let x = 1") []
    = Fulfilled (error (Some missing_key_message)) /\
  outcome (generateEmbedding (stub_host (CfgString "gpt-4"))
             (new_AIClient {| getOpenAIApiKey := Rejected (Foreign None) |}
                Build_Logger "https://api.openai.com/v1/") "let x = 1") []
    = Fulfilled (error None) /\
  outcome (generateEmbedding (failing_host (CfgString "gpt-4") (JsError "socket hang up"))
             local_client "let x = 1") []
    = Fulfilled (error (Some "socket hang up")).
Proof.
  split; [|split].
  - apply (generateEmbedding_never_raises (stub_host (CfgString "gpt-4")) locked_client
             "let x = 1" []).
    reflexivity.
  - apply (proj1 (proj2 (proj2 (generateEmbedding_never_raises
             (stub_host (CfgString "gpt-4"))
             (new_AIClient {| getOpenAIApiKey := Rejected (Foreign None) |}
                Build_Logger "https://api.openai.com/v1/") "let x = 1" []))) (Foreign None)).
    reflexivity.
  - apply (proj2 (proj2 (proj2 (generateEmbedding_never_raises
             (failing_host (CfgString "gpt-4") (JsError "socket hang up"))
             local_client "let x = 1" []))) "sk-1" (JsError "socket hang up"));
      reflexivity.
Defined.

(** C6. When the key is present and the provider's embedding call is
    fulfilled with at least one response record, [generateEmbedding] is
    fulfilled with the success variant: the provider's vector as it came
    and the [total_tokens] of the first record's usage. *)
Theorem generateEmbedding_success
    (host : Host) (this : AIClient) (input : string) (t : trace)
    (key : string) (full : EmbedFullResponse)
    (first : OpenAITextEmbeddingResponse) (others : list OpenAITextEmbeddingResponse) :
  getOpenAIApiKey (apiKeyManager this) = Fulfilled (Some key) ->
  provider_embed host
    {| embedding_api := {| baseUrl := openAIBaseUrl this; apiKey := key |};
       embedding_model := "text-embedding-ada-002" |} input = Fulfilled full ->
  response full = first :: others ->
  outcome (generateEmbedding host this input) t
    = Fulfilled (success (output full) (total_tokens (usage first))).
Proof.
  intros Hkey Hembed Hresp. fold (ada_002 this key) in Hembed.
  embedding_cases host this input t.
Qed.

Lemma generateEmbedding_success_witness :
  outcome (generateEmbedding (stub_host (CfgString "gpt-4")) local_client "let x = 1") []
    = Fulfilled (success [0.1; 0.2; 0.3]%float 7%float).
Proof.
  apply (generateEmbedding_success (stub_host (CfgString "gpt-4")) local_client "let x = 1" []
           "sk-1"
           {| output := [0.1; 0.2; 0.3]%float; response := [usage_of 7%float] |}
           (usage_of 7%float) []);
    reflexivity.
Defined.

(** ** Validation errors *)

(** C3. When the key manager reports the key absent, [streamText] rejects
    with the error that tells the user which command enters a key,
    [generateEmbedding] is fulfilled with the error variant carrying the
    same message, and neither issues a network call: the network-call
    counter is what it was before the call. *)
Theorem missing_credential_without_network (host : Host) (this : AIClient) (t : trace) :
  getOpenAIApiKey (apiKeyManager this) = Fulfilled None ->
  (forall args,
     outcome (streamText host this args) t =
       Rejected (JsError "No OpenAI API key found. Please enter your OpenAI API key with the 'Rubberduck: Enter OpenAI API key' command.") /\
     network_calls (issued (streamText host this args) t) = network_calls t) /\
  (forall input,
     outcome (generateEmbedding host this input) t =
       Fulfilled (error (Some "No OpenAI API key found. Please enter your OpenAI API key with the 'Rubberduck: Enter OpenAI API key' command.")) /\
     network_calls (issued (generateEmbedding host this input) t) = network_calls t).
Proof.
  intros Hkey. split.
  - intros args. unfold outcome, issued.
    rewrite (streamText_key_absent host this args t Hkey). cbn [fst snd].
    split; [reflexivity|]. rewrite network_calls_app. cbn. lia.
  - intros input. unfold outcome, issued.
    rewrite (generateEmbedding_key_absent host this input t Hkey). cbn [fst snd].
    split; [reflexivity|]. rewrite network_calls_app. cbn. lia.
Qed.

Lemma missing_credential_without_network_witness :
  network_calls (issued (streamText (stub_host (CfgString "gpt-4")) locked_client sample_args) [])
    = 0 /\
  network_calls (issued (generateEmbedding (stub_host (CfgString "gpt-4")) locked_client
                           "let x = 1") []) = 0.
Proof.
  pose proof (missing_credential_without_network (stub_host (CfgString "gpt-4"))
                locked_client [] eq_refl) as [Hstream Hembed].
  split.
  - exact (proj2 (Hstream sample_args)).
  - exact (proj2 (Hembed "let x = 1")).
Defined.

(** C2, as the claim has it, fails for [generateEmbedding]: with the key
    absent the call does not raise, it is fulfilled with the error
    variant. *)
Lemma generateEmbedding_raises_refuted :
  getOpenAIApiKey (apiKeyManager locked_client) = Fulfilled None /\
  outcome (generateEmbedding (stub_host (CfgString "gpt-4")) locked_client "let x = 1") []
    = Fulfilled (error (Some missing_key_message)) /\
  ~ (exists e,
       outcome (generateEmbedding (stub_host (CfgString "gpt-4")) locked_client "let x = 1") []
         = Rejected e).
Proof.
  split; [reflexivity|]. split; [reflexivity|].
  intros [e H]. discriminate H.
Qed.

(** C2, amended. [streamText] raises the validation errors to its caller
    before any network call: [MissingCredential] when the key is absent,
    the [ZodError] of the model check when the key is present and the
    configured model is outside the enumeration.  [generateEmbedding]
    raises neither: it never rejects, it does not read the configured
    model, and with the key absent it is fulfilled with the error variant
    that carries the [MissingCredential] message, before any network
    call. *)
Theorem validation_errors_before_network (host : Host) (this : AIClient) (t : trace) :
  (forall args,
     getOpenAIApiKey (apiKeyManager this) = Fulfilled None ->
     outcome (streamText host this args) t = Rejected MissingCredential /\
     network_calls (issued (streamText host this args) t) = network_calls t) /\
  (forall args key,
     getOpenAIApiKey (apiKeyManager this) = Fulfilled (Some key) ->
     in_enumeration (configuration_model host) = false ->
     (exists e, outcome (streamText host this args) t = Rejected e /\
                is_ConfigurationError e = true) /\
     network_calls (issued (streamText host this args) t) = network_calls t) /\
  (forall input,
     (exists r, outcome (generateEmbedding host this input) t = Fulfilled r) /\
     (forall section key,
        ~ In (EvGetConfiguration section key)
             (new_calls (generateEmbedding host this input) t)) /\
     (getOpenAIApiKey (apiKeyManager this) = Fulfilled None ->
        outcome (generateEmbedding host this input) t
          = Fulfilled (error (message_of MissingCredential)) /\
        network_calls (issued (generateEmbedding host this input) t) = network_calls t)).
Proof.
  split; [|split].
  - intros args Hkey. unfold outcome, issued.
    rewrite (streamText_key_absent host this args t Hkey). cbn [fst snd].
    split; [reflexivity|]. rewrite network_calls_app. cbn. lia.
  - intros args key Hkey Hcfg. unfold outcome, issued.
    destruct (streamText_model_rejected host this args t key Hkey Hcfg) as [issue ->].
    cbn [fst snd]. split; [eauto|]. rewrite network_calls_app. cbn. lia.
  - intros input.
    destruct (generateEmbedding_runs host this input t) as (r & new & Hrun & Hcase).
    split; [|split].
    + unfold outcome. rewrite Hrun. exact (embedding_run_settles host this input r new Hcase).
    + rewrite (new_calls_of (generateEmbedding host this input) t new)
        by (unfold issued; now rewrite Hrun).
      exact (embedding_run_no_configuration host this input r new Hcase).
    + intros Hkey. unfold outcome, issued.
      rewrite (generateEmbedding_key_absent host this input t Hkey). cbn [fst snd].
      split; [reflexivity|]. rewrite network_calls_app. cbn. lia.
Qed.

Lemma validation_errors_before_network_witness :
  outcome (streamText (stub_host (CfgString "gpt-4")) locked_client sample_args) []
    = Rejected MissingCredential /\
  (exists e,
     outcome (streamText (stub_host (CfgString "gpt-5")) local_client sample_args) []
       = Rejected e /\ is_ConfigurationError e = true) /\
  outcome (generateEmbedding (stub_host (CfgString "gpt-5")) locked_client "let x = 1") []
    = Fulfilled (error (Some missing_key_message)).
Proof.
  split; [|split].
  - apply (proj1 (validation_errors_before_network (stub_host (CfgString "gpt-4"))
                    locked_client []) sample_args).
    reflexivity.
  - apply (proj1 (proj2 (validation_errors_before_network (stub_host (CfgString "gpt-5"))
                           local_client [])) sample_args "sk-1"); reflexivity.
  - pose proof (validation_errors_before_network (stub_host (CfgString "gpt-5"))
                  locked_client []) as (_ & _ & Hembed).
    destruct (Hembed "let x = 1") as (_ & _ & Habsent).
    exact (proj1 (Habsent eq_refl)).
Defined.

(** ** [streamText] *)

(** C7. Every call of [streamText] issues exactly one log call, holding
    the start marker, the prompt as given and the end marker; any network
    call of the run comes after it.  This holds for every host, so
    whether the network call later succeeds, fails or is never made. *)
Theorem streamText_logs_prompt_first
    (host : Host) (this : AIClient) (args : StreamTextArgs) (t : trace) :
  issued (streamText host this args) t = t ++ new_calls (streamText host this args) t /\
  log_calls (new_calls (streamText host this args) t)
    = [EvLog ["--- Start OpenAI prompt ---"; prompt args; "--- End OpenAI prompt ---"]] /\
  (forall before e after,
     new_calls (streamText host this args) t = before ++ e :: after ->
     is_network_call e = true ->
     In (EvLog ["--- Start OpenAI prompt ---"; prompt args; "--- End OpenAI prompt ---"])
        before).
Proof.
  destruct (streamText_calls host this args t) as (rest & Hissued & Hlogs & _).
  rewrite (new_calls_of _ _ _ Hissued). split; [exact Hissued|]. split.
  - change (prompt_log args :: rest) with ([prompt_log args] ++ rest).
    rewrite log_calls_app, Hlogs. reflexivity.
  - intros before e after Hsplit Hnet. destruct before as [|b before].
    + cbn in Hsplit. injection Hsplit as <- _. discriminate Hnet.
    + cbn in Hsplit. injection Hsplit as <- _. now left.
Qed.

Lemma streamText_logs_prompt_first_witness :
  In (EvLog ["--- Start OpenAI prompt ---"; "Explain this code"; "--- End OpenAI prompt ---"])
     [EvLog ["--- Start OpenAI prompt ---"; "Explain this code"; "--- End OpenAI prompt ---"];
      EvGetOpenAIApiKey; EvGetConfiguration "rubberduck" "model"].
Proof.
  apply (proj2 (proj2 (streamText_logs_prompt_first (stub_host (CfgString "gpt-4"))
                         local_client sample_args []))
           _
           (EvStreamText
              {| api := {| baseUrl := "http://localhost:8080/v1"; apiKey := "sk-1" |};
                 model := "gpt-4";
                 maxCompletionTokens := 1024%float;
                 temperature := 0%float;
                 frequencyPenalty := 0%float;
                 presencePenalty := 0%float;
                 stopSequences := Some ["```"];
                 promptFormat := InstructionPromptToOpenAIChat |}
              {| instruction := "Explain this code" |})
           []).
  - reflexivity.
  - reflexivity.
Defined.

(** C8, as the claim has it, fails when the key is absent too: the call
    then rejects with [MissingCredential], which is not the model check's
    error. *)
Lemma invalid_model_alone_refuted :
  in_enumeration (configuration_model (stub_host (CfgString "gpt-5"))) = false /\
  outcome (streamText (stub_host (CfgString "gpt-5")) locked_client sample_args) []
    = Rejected MissingCredential /\
  is_ConfigurationError MissingCredential = false.
Proof. repeat split. Qed.

(** C8, amended. When the configured model is outside the enumeration,
    [streamText] rejects and issues no network call; when in addition the
    key manager supplies a key, the rejection is the [ZodError] of the
    model check. *)
Theorem invalid_model_rejected_before_network
    (host : Host) (this : AIClient) (args : StreamTextArgs) (t : trace) :
  in_enumeration (configuration_model host) = false ->
  (exists e, outcome (streamText host this args) t = Rejected e) /\
  network_calls (issued (streamText host this args) t) = network_calls t /\
  (forall key,
     getOpenAIApiKey (apiKeyManager this) = Fulfilled (Some key) ->
     exists issue,
       outcome (streamText host this args) t
         = Rejected (ZodError issue (zod_message host issue))).
Proof.
  intros Hcfg. unfold outcome, issued.
  destruct (getOpenAIApiKey (apiKeyManager this)) as [[key|]|e] eqn:Hkey.
  - destruct (streamText_model_rejected host this args t key Hkey Hcfg) as [issue ->].
    cbn [fst snd]. rewrite network_calls_app. cbn. repeat split; eauto; lia.
  - rewrite (streamText_key_absent host this args t Hkey). cbn [fst snd].
    rewrite network_calls_app. cbn. repeat split; eauto; try lia. discriminate.
  - rewrite (streamText_key_rejected host this args t e Hkey). cbn [fst snd].
    rewrite network_calls_app. cbn. repeat split; eauto; try lia. discriminate.
Qed.

Lemma invalid_model_rejected_before_network_witness :
  (exists e,
     outcome (streamText (stub_host (CfgString "gpt-5")) local_client sample_args) []
       = Rejected e) /\
  network_calls (issued (streamText (stub_host (CfgString "gpt-5")) local_client sample_args) [])
    = 0 /\
  exists issue,
    outcome (streamText (stub_host (CfgString "gpt-5")) local_client sample_args) []
      = Rejected (ZodError issue "Invalid enum value").
Proof.
  pose proof (invalid_model_rejected_before_network (stub_host (CfgString "gpt-5"))
                local_client sample_args [] eq_refl) as (Hrej & Hnet & Hzod).
  split; [exact Hrej|]. split; [exact Hnet|].
  exact (Hzod "sk-1" eq_refl).
Defined.

(** C10. The key is looked up before the model is checked: when the key
    manager reports the key absent, [streamText] rejects with
    [MissingCredential], which is not the model check's error, and the
    configured model is not even read; so it does whatever the configured
    model is, inside or outside the enumeration. *)
Theorem missing_credential_precedes_model_check
    (host : Host) (this : AIClient) (args : StreamTextArgs) (t : trace) :
  getOpenAIApiKey (apiKeyManager this) = Fulfilled None ->
  outcome (streamText host this args) t = Rejected MissingCredential /\
  is_ConfigurationError MissingCredential = false /\
  new_calls (streamText host this args) t
    = [EvLog ["--- Start OpenAI prompt ---"; prompt args; "--- End OpenAI prompt ---"];
       EvGetOpenAIApiKey].
Proof.
  intros Hkey.
  pose proof (streamText_key_absent host this args t Hkey) as Hrun.
  split; [|split].
  - unfold outcome. now rewrite Hrun.
  - reflexivity.
  - apply new_calls_of. unfold issued. now rewrite Hrun.
Qed.

Lemma missing_credential_precedes_model_check_witness :
  in_enumeration (configuration_model (stub_host (CfgString "gpt-5"))) = false /\
  outcome (streamText (stub_host (CfgString "gpt-5")) locked_client sample_args) []
    = Rejected (JsError missing_key_message).
Proof.
  split; [reflexivity|].
  apply (missing_credential_precedes_model_check (stub_host (CfgString "gpt-5"))
           locked_client sample_args []).
  reflexivity.
Defined.

(** C9. The model [streamText] passes to the network layer has frequency
    penalty 0 and presence penalty 0, the caller's temperature (0 when the
    caller gives none), the caller's stop sequences and the caller's
    maximum token count; and once the key is present and the configured
    model is in the enumeration, the network layer is called exactly once,
    with such a model and the prompt as the instruction. *)
Theorem streamText_sampling_configuration
    (host : Host) (this : AIClient) (args : StreamTextArgs) (t : trace) :
  (forall chat p,
     In (EvStreamText chat p) (new_calls (streamText host this args) t) ->
     frequencyPenalty chat = 0%float /\
     presencePenalty chat = 0%float /\
     temperature chat = match arg_temperature args with
                        | Some x => x
                        | None => 0%float
                        end /\
     stopSequences chat = stop args /\
     maxCompletionTokens chat = maxTokens args) /\
  (forall key,
     getOpenAIApiKey (apiKeyManager this) = Fulfilled (Some key) ->
     in_enumeration (configuration_model host) = true ->
     network_calls (new_calls (streamText host this args) t) = 1 /\
     exists chat,
       In (EvStreamText chat {| instruction := prompt args |})
          (new_calls (streamText host this args) t)).
Proof.
  split.
  - intros chat p Hin.
    destruct (getOpenAIApiKey (apiKeyManager this)) as [[key|]|e] eqn:Hkey.
    + destruct (in_enumeration (configuration_model host)) eqn:Hcfg.
      * destruct (in_enumeration_string host Hcfg) as (name & Hname & Hsup).
        pose proof (streamText_dispatched host this args t key name Hkey Hname Hsup
                      _ eq_refl) as Hrun.
        rewrite (new_calls_of (streamText host this args) t _
                   (f_equal snd Hrun)) in Hin.
        cbn in Hin. destruct Hin as [Hin|[Hin|[Hin|[Hin|[]]]]]; try discriminate Hin.
        injection Hin as <- _. repeat split.
      * destruct (streamText_model_rejected host this args t key Hkey Hcfg)
          as [issue Hrun].
        rewrite (new_calls_of (streamText host this args) t _
                   (f_equal snd Hrun)) in Hin.
        cbn in Hin. intuition discriminate.
    + pose proof (streamText_key_absent host this args t Hkey) as Hrun.
      rewrite (new_calls_of (streamText host this args) t _ (f_equal snd Hrun)) in Hin.
      cbn in Hin. intuition discriminate.
    + pose proof (streamText_key_rejected host this args t e Hkey) as Hrun.
      rewrite (new_calls_of (streamText host this args) t _ (f_equal snd Hrun)) in Hin.
      cbn in Hin. intuition discriminate.
  - intros key Hkey Hcfg.
    destruct (in_enumeration_string host Hcfg) as (name & Hname & Hsup).
    pose proof (streamText_dispatched host this args t key name Hkey Hname Hsup
                  _ eq_refl) as Hrun.
    rewrite (new_calls_of (streamText host this args) t _ (f_equal snd Hrun)).
    split; [reflexivity|]. eexists. cbn. do 3 right. left. reflexivity.
Qed.

Lemma streamText_sampling_configuration_witness :
  network_calls (new_calls (streamText (stub_host (CfgString "gpt-3.5-turbo-16k"))
                              local_client sample_args) []) = 1 /\
  frequencyPenalty
    {| api := {| baseUrl := "http://localhost:8080/v1"; apiKey := "sk-1" |};
       model := "gpt-3.5-turbo-16k";
       maxCompletionTokens := 1024%float;
       temperature := 0%float;
       frequencyPenalty := 0%float;
       presencePenalty := 0%float;
       stopSequences := Some ["```"];
       promptFormat := InstructionPromptToOpenAIChat |} = 0%float.
Proof.
  pose proof (streamText_sampling_configuration (stub_host (CfgString "gpt-3.5-turbo-16k"))
                local_client sample_args []) as [Hfields Hcalled].
  split.
  - exact (proj1 (Hcalled "sk-1" eq_refl eq_refl)).
  - refine (proj1 (Hfields _ {| instruction := "Explain this code" |} _)).
    cbn. do 3 right. left. reflexivity.
Defined.

(** ** Further properties *)

Lemma ends_with_slash_inv (s : string) :
  ends_with_slash s = true -> exists p, s = (p ++ "/")%string.
Proof.
  induction s as [|c s IH]; [discriminate|].
  destruct s as [|d s].
  - cbn. intros H. apply Ascii.eqb_eq in H. subst c. now exists EmptyString.
  - intros H. destruct (IH H) as [p Hp]. exists (String c p). cbn [append]. now rewrite <- Hp.
Qed.

Lemma stored_slash_iff (s : string) :
  ends_with_slash (Regex.replace s "") = true <-> exists p, s = (p ++ "//")%string.
Proof.
  split.
  - intros H. destruct (ends_with_slash s) eqn:Hs.
    + destruct (ends_with_slash_inv s Hs) as [p ->].
      rewrite replace_app_slash in H.
      destruct (ends_with_slash_inv p H) as [q ->].
      exists q. now rewrite append_assoc.
    + rewrite (replace_without_slash s Hs) in H. congruence.
  - intros [p ->]. change "//" with ("/" ++ "/")%string.
    rewrite <- append_assoc, replace_app_slash. apply ends_with_slash_app.
Qed.

(** After construction and any updates, the stored base URL is the last
    URL supplied with one trailing slash removed; it ends in a slash
    exactly when that URL ends in two. *)
Theorem base_url_after_updates
    (am : ApiKeyManager) (lg : Logger) (initial : string) (updates : list string) :
  openAIBaseUrl (fold_left setOpenAIBaseUrl updates (new_AIClient am lg initial))
    = Regex.replace (last updates initial) "" /\
  (ends_with_slash
     (openAIBaseUrl (fold_left setOpenAIBaseUrl updates (new_AIClient am lg initial))) = true
   <-> exists p, last updates initial = (p ++ "//")%string).
Proof.
  assert (H : forall this,
             openAIBaseUrl (fold_left setOpenAIBaseUrl updates this)
               = match updates with
                 | [] => openAIBaseUrl this
                 | _ => Regex.replace (last updates initial) ""
                 end).
  { induction updates as [|u us IH]; intros this; [reflexivity|].
    cbn [fold_left]. rewrite IH. destruct us as [|v us]; reflexivity. }
  assert (Hstored : openAIBaseUrl
                      (fold_left setOpenAIBaseUrl updates (new_AIClient am lg initial))
                    = Regex.replace (last updates initial) "").
  { rewrite H. destruct updates; reflexivity. }
  split; [exact Hstored|]. rewrite Hstored. apply stored_slash_iff.
Qed.

Lemma base_url_after_updates_witness :
  exists p, "http://localhost:1234//" = (p ++ "//")%string.
Proof.
  apply (proj2 (base_url_after_updates key_present Build_Logger "https://api.openai.com/v1/"
                  ["http://localhost:8080/"; "http://localhost:1234//"])).
  reflexivity.
Defined.

(** [streamText] does not translate what the provider answers: with the
    key present and the configured model supported, the call settles as
    the provider's call does, fulfilled with its stream or rejected with
    its reason, and the configuration sent holds the stored base URL and
    the key of this call. *)
Theorem streamText_settles_as_provider
    (host : Host) (this : AIClient) (args : StreamTextArgs) (t : trace) (key name : string) :
  getOpenAIApiKey (apiKeyManager this) = Fulfilled (Some key) ->
  configuration_model host = CfgString name ->
  supported_model name = true ->
  exists chat,
    api chat = {| baseUrl := openAIBaseUrl this; apiKey := key |} /\
    model chat = name /\
    promptFormat chat = InstructionPromptToOpenAIChat /\
    outcome (streamText host this args) t
      = provider_streamText host chat {| instruction := prompt args |}.
Proof.
  intros Hkey Hname Hsup.
  eexists. repeat split; cycle 3.
  - unfold outcome.
    rewrite (streamText_dispatched host this args t key name Hkey Hname Hsup _ eq_refl).
    reflexivity.
  - reflexivity.
  - reflexivity.
  - reflexivity.
Qed.

Lemma streamText_settles_as_provider_witness :
  exists chat,
    api chat = {| baseUrl := "http://localhost:8080/v1"; apiKey := "sk-1" |} /\
    model chat = "gpt-4" /\
    promptFormat chat = InstructionPromptToOpenAIChat /\
    outcome (streamText (failing_host (CfgString "gpt-4") (JsError "429 Too Many Requests"))
               local_client sample_args) []
      = Rejected (JsError "429 Too Many Requests").
Proof.
  apply (streamText_settles_as_provider
           (failing_host (CfgString "gpt-4") (JsError "429 Too Many Requests"))
           local_client sample_args [] "sk-1" "gpt-4"); reflexivity.
Defined.

(** A fulfilled embedding call whose response list is empty makes
    [generateEmbedding] resolve to the error variant: reading [usage] of
    the missing first record throws, and the throw is caught. *)
Theorem generateEmbedding_without_usage
    (host : Host) (this : AIClient) (input : string) (t : trace)
    (key : string) (full : EmbedFullResponse) :
  getOpenAIApiKey (apiKeyManager this) = Fulfilled (Some key) ->
  provider_embed host
    {| embedding_api := {| baseUrl := openAIBaseUrl this; apiKey := key |};
       embedding_model := "text-embedding-ada-002" |} input = Fulfilled full ->
  response full = [] ->
  outcome (generateEmbedding host this input) t
    = Fulfilled (error (Some "Cannot read properties of undefined (reading 'usage')")).
Proof.
  intros Hkey Hembed Hresp. fold (ada_002 this key) in Hembed.
  embedding_cases host this input t.
Qed.

Lemma generateEmbedding_without_usage_witness :
  outcome (generateEmbedding
             {| configuration_model := CfgUndefined;
                provider_streamText := fun _ _ => Fulfilled [];
                provider_embed := fun _ _ => Fulfilled {| output := []; response := [] |};
                zod_message := fun _ => "Required" |}
             local_client "let x = 1") []
    = Fulfilled (error (Some "Cannot read properties of undefined (reading 'usage')")).
Proof.
  apply (generateEmbedding_without_usage
           {| configuration_model := CfgUndefined;
              provider_streamText := fun _ _ => Fulfilled [];
              provider_embed := fun _ _ => Fulfilled {| output := []; response := [] |};
              zod_message := fun _ => "Required" |}
           local_client "let x = 1" [] "sk-1" {| output := []; response := [] |});
    reflexivity.
Defined.

(** ** Every run of [streamText] *)

Lemma streamText_runs (host : Host) (this : AIClient) (args : StreamTextArgs) (t : trace) :
  exists r new,
    streamText host this args t = (r, t ++ new) /\
    stream_run host this args r new.
Proof.
  run_async.
  case_eq (getOpenAIApiKey (apiKeyManager this)); [intros [key|] Hkey | intros e Hkey]; cbn.
  - case_eq (z_enum_parse (zod_message host) chat_models (configuration_model host));
      [intros name Hparse | intros e Hparse]; cbn; flatten_trace;
      do 2 eexists; (split; [reflexivity|]).
    + exact (stream_dispatched host this args key name Hkey Hparse).
    + exact (stream_model_rejected host this args key e Hkey Hparse).
  - flatten_trace. do 2 eexists. split; [reflexivity|]. now apply stream_key_absent.
  - flatten_trace. do 2 eexists. split; [reflexivity|]. now apply stream_key_rejected.
Qed.

Lemma streamText_new_calls (host : Host) (this : AIClient) (args : StreamTextArgs) (t : trace) :
  stream_run host this args
    (outcome (streamText host this args) t) (new_calls (streamText host this args) t).
Proof.
  destruct (streamText_runs host this args t) as (r & new & Hrun & Hcase).
  rewrite (new_calls_of (streamText host this args) t new) by (unfold issued; now rewrite Hrun).
  unfold outcome. now rewrite Hrun.
Qed.

Lemma generateEmbedding_new_calls (host : Host) (this : AIClient) (input : string) (t : trace) :
  embedding_run host this input
    (outcome (generateEmbedding host this input) t)
    (new_calls (generateEmbedding host this input) t).
Proof.
  destruct (generateEmbedding_runs host this input t) as (r & new & Hrun & Hcase).
  rewrite (new_calls_of (generateEmbedding host this input) t new)
    by (unfold issued; now rewrite Hrun).
  unfold outcome. now rewrite Hrun.
Qed.

(** What [z.enum(...).parse] accepts, by membership. *)
Lemma z_enum_parse_fulfilled (render : zod_issue -> string) (values : list string)
    (data : config_value) (s : string) :
  z_enum_parse render values data = Fulfilled s <-> data = CfgString s /\ In s values.
Proof.
  unfold z_enum_parse. split.
  - destruct data as [| |b|n|d|]; try discriminate.
    destruct (existsb (String.eqb d) values) eqn:Hd; [|discriminate].
    intros H. injection H as <-. split; [reflexivity|].
    apply existsb_exists in Hd. destruct Hd as (v & Hin & Heq).
    apply String.eqb_eq in Heq. now subst v.
  - intros [-> Hin].
    assert (existsb (String.eqb s) values = true) as ->; [|reflexivity].
    apply existsb_exists. exists s. split; [exact Hin | apply String.eqb_refl].
Qed.

Lemma fold_setOpenAIBaseUrl (updates : list string) (initial : string) :
  forall this,
    apiKeyManager (fold_left setOpenAIBaseUrl updates this) = apiKeyManager this /\
    openAIBaseUrl (fold_left setOpenAIBaseUrl updates this)
      = match updates with
        | [] => openAIBaseUrl this
        | _ => Regex.replace (last updates initial) ""
        end.
Proof.
  induction updates as [|u us IH]; intros this; [split; reflexivity|].
  cbn [fold_left]. destruct (IH (setOpenAIBaseUrl this u)) as [Ham Hurl].
  rewrite Ham, Hurl. split; [reflexivity|]. destruct us; reflexivity.
Qed.

Lemma client_after_updates (am : ApiKeyManager) (lg : Logger) (initial : string)
    (updates : list string) :
  apiKeyManager (fold_left setOpenAIBaseUrl updates (new_AIClient am lg initial)) = am /\
  openAIBaseUrl (fold_left setOpenAIBaseUrl updates (new_AIClient am lg initial))
    = Regex.replace (last updates initial) "".
Proof.
  destruct (fold_setOpenAIBaseUrl updates initial (new_AIClient am lg initial)) as [Ham Hurl].
  split; [exact Ham|]. rewrite Hurl. destruct updates; reflexivity.
Qed.

(** ** The base-URL setting *)



(** ** What the network layer is sent *)

(** After construction and any updates of the base URL, every network call
    of either operation carries the last URL supplied, one trailing slash
    removed, and a key the key manager given at construction has just
    returned; the chat model is the configured one and is supported, the
    instruction is the prompt; the embedding model is always
    [text-embedding-ada-002] and the value embedded is the input. *)
Theorem requests_use_latest_base_url
    (am : ApiKeyManager) (lg : Logger) (initial : string) (updates : list string)
    (host : Host) (t : trace) :
  (forall args chat p,
     In (EvStreamText chat p)
        (new_calls (streamText host
                      (fold_left setOpenAIBaseUrl updates (new_AIClient am lg initial)) args) t) ->
     baseUrl (api chat) = Regex.replace (last updates initial) "" /\
     getOpenAIApiKey am = Fulfilled (Some (apiKey (api chat))) /\
     configuration_model host = CfgString (model chat) /\
     In (model chat) chat_models /\
     p = {| instruction := prompt args |}) /\
  (forall input m value,
     In (EvEmbed m value)
        (new_calls (generateEmbedding host
                      (fold_left setOpenAIBaseUrl updates (new_AIClient am lg initial)) input) t) ->
     baseUrl (embedding_api m) = Regex.replace (last updates initial) "" /\
     getOpenAIApiKey am = Fulfilled (Some (apiKey (embedding_api m))) /\
     embedding_model m = "text-embedding-ada-002" /\
     value = input).
Proof.
  destruct (client_after_updates am lg initial updates) as [Ham Hurl].
  set (this := fold_left setOpenAIBaseUrl updates (new_AIClient am lg initial)) in *.
  split.
  - intros args chat p Hin.
    pose proof (streamText_new_calls host this args t) as Hrun.
    inversion Hrun as [Hkey Hr Hn | e Hkey Hr Hn | key e Hkey Hparse Hr Hn
                      | key name Hkey Hparse Hr Hn];
      rewrite <- Hn in Hin; cbn in Hin;
      try (intuition discriminate).
    destruct Hin as [Hin|[Hin|[Hin|[Hin|[]]]]]; try discriminate Hin.
    injection Hin as <- <-.
    apply z_enum_parse_fulfilled in Hparse. destruct Hparse as [Hcfg Hsup].
    cbn. rewrite <- Ham, <- Hurl. auto.
  - intros input m value Hin.
    pose proof (generateEmbedding_new_calls host this input t) as Hrun.
    inversion Hrun as [Hkey Hr Hn | e Hkey Hr Hn | key e Hkey Hembed Hr Hn
                      | key full Hkey Hembed Hresp Hr Hn
                      | key full first others Hkey Hembed Hresp Hr Hn];
      rewrite <- Hn in Hin; cbn in Hin;
      try (intuition discriminate);
      (destruct Hin as [Hin|[Hin|Hin]]; try discriminate Hin;
       [ injection Hin as <- <-; cbn; rewrite <- Ham, <- Hurl; auto
       | try (destruct Hin as [Hin|[]]; discriminate Hin); try contradiction ]).
Qed.

Lemma requests_use_latest_base_url_witness :
  baseUrl (api (chat_model_for
                  (fold_left setOpenAIBaseUrl ["http://localhost:1234/"; "http://proxy/openai/"]
                     (new_AIClient key_present Build_Logger "https://api.openai.com/v1/"))
                  sample_args "sk-1" "gpt-4"))
    = "http://proxy/openai".
Proof.
  refine (proj1 (proj1 (requests_use_latest_base_url key_present Build_Logger
                          "https://api.openai.com/v1/"
                          ["http://localhost:1234/"; "http://proxy/openai/"]
                          (stub_host (CfgString "gpt-4")) [])
                   sample_args _ {| instruction := "Explain this code" |} _)).
  cbn. do 3 right. left. reflexivity.
Defined.

(** ** Calls per operation *)



(** ** [generateEmbedding]: diagnostics and success *)

(** [generateEmbedding] writes to the console exactly when it returns the
    error variant: once, the thrown value itself, whose [message] is the
    [errorMessage] returned; on the success variant nothing is written. *)
Theorem generateEmbedding_console_log
    (host : Host) (this : AIClient) (input : string) (t : trace) :
  match outcome (generateEmbedding host this input) t with
  | Fulfilled (error errorMessage) =>
      exists e,
        filter is_console_log (new_calls (generateEmbedding host this input) t)
          = [EvConsoleLog e] /\
        errorMessage = message_of e
  | Fulfilled (success _ _) =>
      filter is_console_log (new_calls (generateEmbedding host this input) t) = []
  | Rejected _ => False
  end.
Proof.
  pose proof (generateEmbedding_new_calls host this input t) as Hrun.
  inversion Hrun; try (eexists; split; reflexivity); reflexivity.
Qed.

(** The success variant is returned only when the key manager supplied a
    key and the one embedding call made was fulfilled with a non-empty
    response list; the variant then holds that call's output and the
    [total_tokens] of its first response. *)
Theorem generateEmbedding_success_only
    (host : Host) (this : AIClient) (input : string) (t : trace)
    (embedding : list number) (totalTokenCount : number) :
  outcome (generateEmbedding host this input) t
    = Fulfilled (success embedding totalTokenCount) ->
  exists key full first others,
    getOpenAIApiKey (apiKeyManager this) = Fulfilled (Some key) /\
    provider_embed host
      {| embedding_api := {| baseUrl := openAIBaseUrl this; apiKey := key |};
         embedding_model := "text-embedding-ada-002" |} input = Fulfilled full /\
    response full = first :: others /\
    embedding = output full /\
    totalTokenCount = total_tokens (usage first) /\
    network_calls (new_calls (generateEmbedding host this input) t) = 1.
Proof.
  intros Hok. pose proof (generateEmbedding_new_calls host this input t) as Hrun.
  rewrite Hok in Hrun.
  inversion Hrun as [ | | | | key full first others Hkey Hembed Hresp Hr Hn].
  exists key, full, first, others. repeat split; assumption || reflexivity.
Qed.

Lemma generateEmbedding_success_only_witness :
  exists key full first others,
    getOpenAIApiKey (apiKeyManager local_client) = Fulfilled (Some key) /\
    provider_embed (stub_host CfgUndefined)
      {| embedding_api := {| baseUrl := openAIBaseUrl local_client; apiKey := key |};
         embedding_model := "text-embedding-ada-002" |} "let x = 1" = Fulfilled full /\
    response full = first :: others /\
    [0.1; 0.2; 0.3]%float = output full /\
    7%float = total_tokens (usage first) /\
    network_calls (new_calls (generateEmbedding (stub_host CfgUndefined) local_client
                                "let x = 1") []) = 1.
Proof.
  apply (generateEmbedding_success_only (stub_host CfgUndefined) local_client "let x = 1" []).
  reflexivity.
Defined.

(** ** The model setting *)

Lemma getOpenAIChatModel_run (host : Host) (t : trace) :
  getOpenAIChatModel host t
    = (z_enum_parse (zod_message host) chat_models (configuration_model host),
       t ++ [EvGetConfiguration "rubberduck" "model"]).
Proof. reflexivity. Qed.

(** [getOpenAIChatModel] reads the [model] setting of [rubberduck] once.
    It returns [s] exactly when the setting is the string [s] and [s] is
    one of the four supported names, compared as written; every other
    setting makes it throw a [ZodError], of type for a setting that is
    not a string and of enum value for a string outside the names. *)
Theorem getOpenAIChatModel_accepts (host : Host) (t : trace) :
  issued (getOpenAIChatModel host) t = t ++ [EvGetConfiguration "rubberduck" "model"] /\
  (forall s,
     outcome (getOpenAIChatModel host) t = Fulfilled s <->
     configuration_model host = CfgString s /\
     In s ["gpt-4"; "gpt-4-32k"; "gpt-3.5-turbo"; "gpt-3.5-turbo-16k"]) /\
  (forall e,
     outcome (getOpenAIChatModel host) t = Rejected e ->
     is_ConfigurationError e = true /\
     exists issue,
       e = ZodError issue (zod_message host issue) /\
       issue = match configuration_model host with
               | CfgString s => invalid_enum_value s
               | other => invalid_type other
               end).
Proof.
  unfold issued, outcome. rewrite getOpenAIChatModel_run. cbn [fst snd].
  split; [reflexivity|]. split.
  - intros s. apply z_enum_parse_fulfilled.
  - intros e. unfold z_enum_parse.
    destruct (configuration_model host) as [| |b|n|s|];
      try (intros H; injection H as <-; split; [reflexivity | eexists; split; reflexivity]).
    destruct (existsb (String.eqb s) chat_models); [discriminate|].
    intros H; injection H as <-. split; [reflexivity | eexists; split; reflexivity].
Qed.

Lemma getOpenAIChatModel_accepts_witness :
  outcome (getOpenAIChatModel (stub_host (CfgString "gpt-4-32k"))) [] = Fulfilled "gpt-4-32k" /\
  is_ConfigurationError (ZodError (invalid_enum_value "GPT-4") "Invalid enum value") = true.
Proof.
  pose proof (getOpenAIChatModel_accepts (stub_host (CfgString "gpt-4-32k")) [])
    as (_ & Hok & _).
  pose proof (getOpenAIChatModel_accepts (stub_host (CfgString "GPT-4")) [])
    as (_ & _ & Hbad).
  split.
  - apply Hok. split; [reflexivity|]. cbn. auto.
  - exact (proj1 (Hbad _ eq_refl)).
Defined.

(** ** Why [streamText] rejects *)

(** [streamText] rejects with [e] in exactly four situations: the key is
    absent and [e] is the missing-key error; the key manager rejected with
    [e]; a key was supplied and the model check threw [e]; a key was
    supplied, the configured model is supported and the provider's call
    rejected with [e].  It adds no error of its own to these. *)
Theorem streamText_rejections
    (host : Host) (this : AIClient) (args : StreamTextArgs) (t : trace) (e : thrown) :
  outcome (streamText host this args) t = Rejected e <->
  (getOpenAIApiKey (apiKeyManager this) = Fulfilled None /\
   e = JsError missing_key_message) \/
  getOpenAIApiKey (apiKeyManager this) = Rejected e \/
  (exists key,
     getOpenAIApiKey (apiKeyManager this) = Fulfilled (Some key) /\
     outcome (getOpenAIChatModel host) [] = Rejected e) \/
  (exists key name,
     getOpenAIApiKey (apiKeyManager this) = Fulfilled (Some key) /\
     configuration_model host = CfgString name /\
     In name chat_models /\
     provider_streamText host (chat_model_for this args key name)
       {| instruction := prompt args |} = Rejected e).
Proof.
  pose proof (streamText_new_calls host this args t) as Hrun.
  unfold outcome at 2. rewrite getOpenAIChatModel_run. cbn [fst].
  split.
  - intros Hrej. rewrite Hrej in Hrun.
    inversion Hrun as [Hkey Hr Hn | e' Hkey Hr Hn | key e' Hkey Hparse Hr Hn
                      | key name Hkey Hparse Hr Hn]; subst.
    + left. auto.
    + right. left. assumption.
    + right. right. left. eauto.
    + right. right. right. apply z_enum_parse_fulfilled in Hparse.
      destruct Hparse as [Hcfg Hsup]. exists key, name. auto.
  - intros [[Hkey ->] | [Hkey | [(key & Hkey & Hparse) | (key & name & Hkey & Hcfg & Hsup & Hprov)]]].
    + inversion Hrun; congruence || reflexivity.
    + inversion Hrun; congruence.
    + inversion Hrun; congruence.
    + assert (Hparse : z_enum_parse (zod_message host) chat_models (configuration_model host)
                       = Fulfilled name)
        by (apply z_enum_parse_fulfilled; auto).
      inversion Hrun as [Hk Hr Hn | e' Hk Hr Hn | key' e' Hk Hparse' Hr Hn
                        | key' name' Hk Hparse' Hr Hn]; congruence.
Qed.

Lemma streamText_rejections_witness :
  outcome (streamText (failing_host (CfgString "gpt-4") (Foreign (Some "quota exceeded")))
             local_client sample_args) []
    = Rejected (Foreign (Some "quota exceeded")).
Proof.
  apply (proj2 (streamText_rejections
                  (failing_host (CfgString "gpt-4") (Foreign (Some "quota exceeded")))
                  local_client sample_args [] (Foreign (Some "quota exceeded")))).
  do 3 right. exists "sk-1", "gpt-4". repeat split. cbn. auto.
Defined.
